(** * Pagination size resolvers of [pagination_api/paginations.py]

    A shallow embedding of the three resolvers

    - [DefaultLimitOffsetPagination.get_limit]
    - [DefaultPageNumberPagination.get_page_size]
    - [DefaultCursorPagination.get_page_size]

    together with the parts of the host platform they call: the query
    dictionary's [get], [str.isalpha] and [int(str)] of CPython.

    Python strings are sequences of Unicode code points; Python integers are
    unbounded ([Z]); a raised exception is a value of the error monad
    [Py.result]. *)

From Stdlib Require Import String Ascii ZArith NArith List Bool Lia.
Import ListNotations.

Local Open Scope Z_scope.

(* ================================================================== *)
(** * Python values and exceptions *)

Module Py.

(** The exception classes that matter to the resolvers. *)
Inductive exc : Type :=
| KeyError
| ValueError
| TypeError
| AttributeError.

Definition exc_eqb (a b : exc) : bool :=
  match a, b with
  | KeyError, KeyError | ValueError, ValueError
  | TypeError, TypeError | AttributeError, AttributeError => true
  | _, _ => false
  end.

(** The outcome of evaluating an expression or a block. *)
Inductive result (A : Type) : Type :=
| Ok (a : A)
| Raise (e : exc).
Arguments Ok {A} a.
Arguments Raise {A} e.

Definition bind {A B : Type} (m : result A) (k : A -> result B) : result B :=
  match m with
  | Ok a => k a
  | Raise e => Raise e
  end.

(** [except (E1, E2, ...)]: does the clause catch [e]? *)
Definition catches (classes : list exc) (e : exc) : bool :=
  existsb (exc_eqb e) classes.

(** [try: body  except classes: pass].  The body either falls off its end
    ([None]), executes [return v] ([Some v]) or raises; a caught exception
    falls through like the end of the body, any other one propagates. *)
Definition try_except_pass {A : Type} (body : result (option A))
           (classes : list exc) : result (option A) :=
  match body with
  | Ok r => Ok r
  | Raise e => if catches classes e then Ok None else Raise e
  end.

End Py.

Import Py.

Notation "x <- m ;; k" := (Py.bind m (fun x => k))
  (at level 61, m at next level, right associativity).

(** A Unicode code point, and a Python [str]. *)
Definition codepoint : Type := N.
Definition str : Type := list codepoint.

(** The [str] whose code points are the bytes of an ASCII literal. *)
Definition str_of (s : string) : str :=
  map N_of_ascii (list_ascii_of_string s).

Definition str_eqb (a b : str) : bool :=
  if list_eq_dec N.eq_dec a b then true else false.

(** Truth value of an object that is a [str] or [None]. *)
Definition truthy (o : option str) : bool :=
  match o with
  | Some (_ :: _) => true
  | _ => false
  end.

(* ================================================================== *)
(** * The host: Unicode database and interpreter settings *)

(** What CPython looks up for code points outside ASCII, and the
    interpreter's limit on the number of digits [int] converts
    ([sys.get_int_max_str_digits()], 0 when there is none).  The letter
    categories of the Unicode database are disjoint from the white space
    and decimal digit ones, and a decimal digit has a value from 0 to 9. *)
Record Host : Type := {
  ucd_isalpha : codepoint -> bool;
  ucd_isspace : codepoint -> bool;
  ucd_todecimal : codepoint -> option N;
  int_max_str_digits : N;
  ucd_alpha_not_space :
    forall c, (128 <= c)%N -> ucd_isalpha c = true -> ucd_isspace c = false;
  ucd_alpha_not_decimal :
    forall c, (128 <= c)%N -> ucd_isalpha c = true -> ucd_todecimal c = None;
  ucd_decimal_is_digit :
    forall c d, ucd_todecimal c = Some d -> (d < 10)%N
}.

Section Platform.

Variable host : Host.

(** ** Character classes *)

Definition ascii_isalpha (c : codepoint) : bool :=
  ((65 <=? c) && (c <=? 90) || (97 <=? c) && (c <=? 122))%N.

Definition ascii_isdigit (c : codepoint) : bool :=
  ((48 <=? c) && (c <=? 57))%N.

(** [Py_ISSPACE] of the C locale-free ctype table: HT, LF, VT, FF, CR, SP. *)
Definition Py_ISSPACE (c : codepoint) : bool :=
  ((9 <=? c) && (c <=? 13) || (c =? 32))%N.

Definition Py_UNICODE_ISALPHA (c : codepoint) : bool :=
  if (c <? 128)%N then ascii_isalpha c else ucd_isalpha host c.

(** Unicode white space adds FS, GS, RS, US to the ASCII part. *)
Definition Py_UNICODE_ISSPACE (c : codepoint) : bool :=
  if (c <? 128)%N
  then ((9 <=? c) && (c <=? 13) || (28 <=? c) && (c <=? 32))%N
  else ucd_isspace host c.

Definition Py_UNICODE_TODECIMAL (c : codepoint) : option N :=
  if (c <? 128)%N
  then (if ascii_isdigit c then Some (c - 48)%N else None)
  else ucd_todecimal host c.

(** ** [str.isalpha] *)

Definition isalpha (s : str) : bool :=
  match s with
  | [] => false
  | _ => forallb Py_UNICODE_ISALPHA s
  end.

(** ** [int(str)] *)

Definition is_ascii (s : str) : bool := forallb (fun c => (c <? 128)%N) s.

(** The loop of [_PyUnicode_TransformDecimalAndSpaceToASCII]: white space
    becomes a blank, a decimal digit its ASCII digit, and the buffer ends
    with a question mark at the first other code point. *)
Fixpoint transform_loop (s : str) : str :=
  match s with
  | [] => []
  | ch :: rest =>
      if (ch <? 127)%N then ch :: transform_loop rest
      else if Py_UNICODE_ISSPACE ch then 32%N :: transform_loop rest
      else match Py_UNICODE_TODECIMAL ch with
           | Some d => (48 + d)%N :: transform_loop rest
           | None => [63%N]
           end
  end.

Definition TransformDecimalAndSpaceToASCII (s : str) : str :=
  if is_ascii s then s else transform_loop s.

Fixpoint skip_spaces (s : str) : str :=
  match s with
  | c :: rest => if Py_ISSPACE c then skip_spaces rest else s
  | [] => []
  end.

(** The digit scan of [PyLong_FromString] in base 10: digits with single
    underscores between them.  [prev] is the previous character, [digits]
    the number of digits seen and [acc] their value.  [None]: two
    underscores in a row, or a trailing one. *)
Fixpoint scan_digits (s : str) (prev : codepoint) (digits : N) (acc : Z)
  : option (Z * N * str) :=
  match s with
  | c :: rest =>
      if (c =? 95)%N then
        if (prev =? 95)%N then None else scan_digits rest c digits acc
      else if ascii_isdigit c then
        scan_digits rest c (digits + 1)%N (10 * acc + Z.of_N (c - 48))
      else if (prev =? 95)%N then None else Some (acc, digits, s)
  | [] => if (prev =? 95)%N then None else Some (acc, digits, [])
  end.

(** The threshold under which the digit limit is never consulted. *)
Definition MAX_STR_DIGITS_THRESHOLD : N := 640.

Definition exceeds_digit_limit (digits : N) : bool :=
  ((MAX_STR_DIGITS_THRESHOLD <? digits)
   && (0 <? int_max_str_digits host)
   && (int_max_str_digits host <? digits))%N.

(** An optional sign, plus or minus, is consumed. *)
Definition parse_sign (s : str) : Z * str :=
  match s with
  | c :: rest =>
      if (c =? 43)%N then (1, rest)
      else if (c =? 45)%N then (-1, rest)
      else (1, s)
  | [] => (1, s)
  end.

Definition starts_with_underscore (s : str) : bool :=
  match s with
  | c :: _ => (c =? 95)%N
  | [] => false
  end.

(** [PyLong_FromString(buffer, &end, 10)] followed by the caller's check
    that the whole buffer was consumed; [None] is the error return. *)
Definition PyLong_FromString (buffer : str) : option Z :=
  let '(sign, s2) := parse_sign (skip_spaces buffer) in
  if starts_with_underscore s2 then None
  else
    match scan_digits s2 0%N 0%N 0 with
    | None => None
    | Some (v, digits, rest) =>
        if (digits =? 0)%N then None
        else if exceeds_digit_limit digits then None
        else match skip_spaces rest with
             | [] => Some (sign * v)
             | _ :: _ => None
             end
    end.

(** [int(s)] for a [str] argument. *)
Definition int_str (s : str) : result Z :=
  match PyLong_FromString (TransformDecimalAndSpaceToASCII s) with
  | Some v => Ok v
  | None => Raise ValueError
  end.

(** [int(x)] and [x.isalpha()] for [x] a [str] or [None]. *)
Definition int (x : option str) : result Z :=
  match x with
  | Some s => int_str s
  | None => Raise TypeError
  end.

Definition call_isalpha (x : option str) : result bool :=
  match x with
  | Some s => Ok (isalpha s)
  | None => Raise AttributeError
  end.

End Platform.

(* ================================================================== *)
(** * The request *)

(** The query dictionary, as the (name, value) pairs of the query string in
    their order.  A name may occur more than once. *)
Definition QueryDict : Type := list (str * str).

Record Request : Type := { query_params : QueryDict }.

(** [query_params.get(key)]: the last value given for [key], [None] when
    there is none ([key] itself may be [None], which is never a name). *)
Fixpoint get (q : QueryDict) (key : option str) : option str :=
  match q with
  | [] => None
  | (k, v) :: rest =>
      match get rest key with
      | Some v' => Some v'
      | None =>
          match key with
          | Some name => if str_eqb k name then Some v else None
          | None => None
          end
      end
  end.

(* ================================================================== *)
(** * The three pagination classes *)

(** Each class is a module: its attributes are the fields of [t] and its
    method takes the host, [self] and the request. *)

Module DefaultLimitOffsetPagination.

Record t : Type := {
  limit_query_param : option str;
  min_limit : Z;
  max_limit : Z;
  default_limit : Z
}.

Definition get_limit (host : Host) (self : t) (request : Request)
  : result Z :=
  if truthy (limit_query_param self)
     && truthy (get (query_params request) (limit_query_param self))
  then
    r <- try_except_pass
           (let limit_value :=
              get (query_params request) (limit_query_param self) in
            alpha <- call_isalpha host limit_value ;;
            if alpha then Ok None
            else
              n <- int host limit_value ;;
              if n >? 0 then
                n' <- int host limit_value ;;
                Ok (Some (Z.min (Z.max n' (min_limit self))
                                (max_limit self)))
              else Ok None)
           [KeyError; ValueError] ;;
    match r with
    | Some v => Ok v
    | None => Ok (default_limit self)
    end
  else Ok (default_limit self).

End DefaultLimitOffsetPagination.

Module DefaultPageNumberPagination.

Record t : Type := {
  page_size : Z;
  page_size_query_param : option str;
  max_page_size : Z
}.

Definition get_page_size (host : Host) (self : t) (request : Request)
  : result Z :=
  if truthy (page_size_query_param self)
     && truthy (get (query_params request) (page_size_query_param self))
  then
    r <- try_except_pass
           (let page_size_value :=
              get (query_params request) (page_size_query_param self) in
            alpha <- call_isalpha host page_size_value ;;
            if alpha then Ok None
            else
              n <- int host page_size_value ;;
              if n >? 0 then
                n' <- int host page_size_value ;;
                Ok (Some (Z.min n' (max_page_size self)))
              else Ok None)
           [KeyError; ValueError] ;;
    match r with
    | Some v => Ok v
    | None => Ok (page_size self)
    end
  else Ok (page_size self).

End DefaultPageNumberPagination.

Module DefaultCursorPagination.

Record t : Type := {
  page_size : Z;
  page_size_query_param : option str;
  max_page_size : Z;
  ordering : str
}.

Definition get_page_size (host : Host) (self : t) (request : Request)
  : result Z :=
  if truthy (page_size_query_param self)
     && truthy (get (query_params request) (page_size_query_param self))
  then
    r <- try_except_pass
           (let page_size_value :=
              get (query_params request) (page_size_query_param self) in
            alpha <- call_isalpha host page_size_value ;;
            if alpha then Ok None
            else
              n <- int host page_size_value ;;
              if n >? 0 then
                n' <- int host page_size_value ;;
                Ok (Some (Z.min n' (max_page_size self)))
              else Ok None)
           [KeyError; ValueError] ;;
    match r with
    | Some v => Ok v
    | None => Ok (page_size self)
    end
  else Ok (page_size self).

End DefaultCursorPagination.

(** The attributes and the method of the offset class are used without
    their prefix; those of the two page-size classes share their names and
    keep it. *)
Import DefaultLimitOffsetPagination.

(** The class attributes as the source declares them ([limit_query_param]
    is inherited: the framework's name for it is limit). *)
Definition limit_offset_defaults : DefaultLimitOffsetPagination.t :=
  {| limit_query_param := Some (str_of "limit");
     min_limit := 1;
     max_limit := 100;
     default_limit := 10 |}.

Definition page_number_defaults : DefaultPageNumberPagination.t :=
  {| DefaultPageNumberPagination.page_size := 10;
     DefaultPageNumberPagination.page_size_query_param :=
       Some (str_of "page_size");
     DefaultPageNumberPagination.max_page_size := 100 |}.

Definition cursor_defaults : DefaultCursorPagination.t :=
  {| DefaultCursorPagination.page_size := 10;
     DefaultCursorPagination.page_size_query_param :=
       Some (str_of "page_size");
     DefaultCursorPagination.max_page_size := 100;
     DefaultCursorPagination.ordering := str_of "-id" |}.

(* ================================================================== *)
(** * A paginator of any of the three classes *)

Inductive Paginator : Type :=
| LimitOffset (self : DefaultLimitOffsetPagination.t)
| PageNumber (self : DefaultPageNumberPagination.t)
| Cursor (self : DefaultCursorPagination.t).

(** The method that resolves the size: [get_limit] or [get_page_size]. *)
Definition resolve (host : Host) (p : Paginator) (request : Request)
  : result Z :=
  match p with
  | LimitOffset self => get_limit host self request
  | PageNumber self =>
      DefaultPageNumberPagination.get_page_size host self request
  | Cursor self =>
      DefaultCursorPagination.get_page_size host self request
  end.

Definition query_param (p : Paginator) : option str :=
  match p with
  | LimitOffset self => limit_query_param self
  | PageNumber self => DefaultPageNumberPagination.page_size_query_param self
  | Cursor self => DefaultCursorPagination.page_size_query_param self
  end.

Definition default_size (p : Paginator) : Z :=
  match p with
  | LimitOffset self => default_limit self
  | PageNumber self => DefaultPageNumberPagination.page_size self
  | Cursor self => DefaultCursorPagination.page_size self
  end.

Definition upper_bound (p : Paginator) : Z :=
  match p with
  | LimitOffset self => max_limit self
  | PageNumber self => DefaultPageNumberPagination.max_page_size self
  | Cursor self => DefaultCursorPagination.max_page_size self
  end.

(** The least size a valid override can resolve to: [min_limit] for the
    offset class; the other two have no such attribute and accept any
    positive value. *)
Definition lower_bound (p : Paginator) : Z :=
  match p with
  | LimitOffset self => min_limit self
  | PageNumber _ | Cursor _ => 1
  end.

(** What each class returns for a positive parsed value [n]. *)
Definition clamp (p : Paginator) (n : Z) : Z :=
  match p with
  | LimitOffset self => Z.min (Z.max n (min_limit self)) (max_limit self)
  | PageNumber self => Z.min n (DefaultPageNumberPagination.max_page_size self)
  | Cursor self => Z.min n (DefaultCursorPagination.max_page_size self)
  end.

(** The resolution algorithm in the words of the specification (steps 1 to
    6), for a policy with an explicit lower bound [minValue]. *)
Definition spec_resolve (host : Host) (queryParamName : option str)
           (minValue maxValue defaultValue : Z) (request : Request) : Z :=
  if negb (truthy queryParamName) then defaultValue
  else
    match get (query_params request) queryParamName with
    | None => defaultValue
    | Some [] => defaultValue
    | Some rawValue =>
        if isalpha host rawValue then defaultValue
        else
          match int_str host rawValue with
          | Raise _ => defaultValue
          | Ok parsedValue =>
              if parsedValue <=? 0 then defaultValue
              else Z.min (Z.max parsedValue minValue) maxValue
          end
    end.

(* ================================================================== *)
(** * A concrete host *)

(** CPython with its default digit limit and the Unicode database cut down
    to Latin-1 (U+0000 to U+00FF): the letters there are U+00AA, U+00B5,
    U+00BA, U+00C0 to U+00D6, U+00D8 to U+00F6 and U+00F8 to U+00FF, the
    white space NEL and NBSP, and there is no decimal digit outside ASCII. *)
Definition latin1_isalpha (c : codepoint) : bool :=
  ((c =? 170) || (c =? 181) || (c =? 186)
   || (192 <=? c) && (c <=? 214)
   || (216 <=? c) && (c <=? 246)
   || (248 <=? c) && (c <=? 255))%N.

Definition latin1_isspace (c : codepoint) : bool :=
  ((c =? 133) || (c =? 160))%N.

Lemma latin1_alpha_not_space :
  forall c, (128 <= c)%N -> latin1_isalpha c = true -> latin1_isspace c = false.
Proof.
  intros c _ Ha. unfold latin1_isalpha in Ha. unfold latin1_isspace.
  destruct (N.eqb_spec c 133) as [->|]; [discriminate Ha|].
  destruct (N.eqb_spec c 160) as [->|]; [discriminate Ha|].
  reflexivity.
Qed.

Lemma latin1_no_decimal :
  forall (c : codepoint) (d : N), @None N = Some d -> (d < 10)%N.
Proof. discriminate. Qed.

Definition cpython_latin1 : Host :=
  {| ucd_isalpha := latin1_isalpha;
     ucd_isspace := latin1_isspace;
     ucd_todecimal := fun _ => None;
     int_max_str_digits := 4300;
     ucd_alpha_not_space := latin1_alpha_not_space;
     ucd_alpha_not_decimal := fun _ _ _ => eq_refl;
     ucd_decimal_is_digit := latin1_no_decimal |}.

(** A request whose query string is [name=value]. *)
Definition request_with (name value : string) : Request :=
  {| query_params := [(str_of name, str_of value)] |}.

(** The value and the text of a run of decimal digits, and the shape of the
    literals [int] accepts in base 10: blanks, a sign, groups of digits
    joined by single underscores, blanks. *)
Definition digit_char (d : N) : codepoint := (48 + d)%N.

Definition digits_str (ds : list N) : str := map digit_char ds.

Definition value_from (acc : Z) (ds : list N) : Z :=
  fold_left (fun a d => 10 * a + Z.of_N d) ds acc.

Definition value_of (ds : list N) : Z := value_from 0 ds.

Inductive sign : Type := NoSign | Plus | Minus.

Definition sign_str (sg : sign) : str :=
  match sg with
  | NoSign => []
  | Plus => [43%N]
  | Minus => [45%N]
  end.

Definition sign_val (sg : sign) : Z :=
  match sg with
  | Minus => -1
  | _ => 1
  end.

Definition more_groups (gs : list (list N)) : str :=
  flat_map (fun g => 95%N :: digits_str g) gs.

Definition literal (ws1 : str) (sg : sign) (g : list N) (gs : list (list N))
           (ws2 : str) : str :=
  ws1 ++ sign_str sg ++ (digits_str g ++ more_groups gs) ++ ws2.

Definition is_digits (ds : list N) : bool :=
  match ds with
  | [] => false
  | _ => forallb (fun d => (d <? 10)%N) ds
  end.

Definition digit_count (g : list N) (gs : list (list N)) : N :=
  N.of_nat (length (g ++ concat gs)).

(** The offset paginator [self] with another [min_limit]. *)
Definition with_min_limit (self : DefaultLimitOffsetPagination.t) (m : Z)
  : DefaultLimitOffsetPagination.t :=
  {| limit_query_param := limit_query_param self;
     min_limit := m;
     max_limit := max_limit self;
     default_limit := default_limit self |}.

(** A request whose query string gives [name] the digits [ds]. *)
Definition request_with_digits (name : string) (ds : list N) : Request :=
  {| query_params := [(str_of name, digits_str ds)] |}.

(** The digits of 123456789012345678901234567890. *)
Definition thirty_digits : list N :=
  [1; 2; 3; 4; 5; 6; 7; 8; 9; 0; 1; 2; 3; 4; 5; 6; 7; 8; 9; 0;
   1; 2; 3; 4; 5; 6; 7; 8; 9; 0]%N.

(** Where the digit scan stops: at the end of the buffer or before a
    character that is neither a digit nor an underscore. *)
Definition stops_scan (rest : str) : Prop :=
  match rest with
  | [] => True
  | c :: _ => (c =? 95)%N = false /\ ascii_isdigit c = false
  end.

(** The characters a base-10 literal is made of, once in ASCII: blanks,
    digits, the two signs and the underscore. *)
Definition ascii_int_char (c : codepoint) : bool :=
  Py_ISSPACE c || ascii_isdigit c
  || (c =? 43)%N || (c =? 45)%N || (c =? 95)%N.

(** The code points [int] can accept somewhere in its argument: those
    characters in ASCII, white space and decimal digits outside it. *)
Definition int_char_ok (host : Host) (c : codepoint) : bool :=
  if (c <? 128)%N then ascii_int_char c
  else ucd_isspace host c
       || match ucd_todecimal host c with
          | Some _ => true
          | None => false
          end.

(** The request without any query parameter. *)
Definition empty_request : Request := {| query_params := [] |}.

(** The page-number paginator with the name, upper bound and default of an
    offset paginator. *)
Definition as_page_number (self : DefaultLimitOffsetPagination.t)
  : DefaultPageNumberPagination.t :=
  {| DefaultPageNumberPagination.page_size := default_limit self;
     DefaultPageNumberPagination.page_size_query_param :=
       limit_query_param self;
     DefaultPageNumberPagination.max_page_size := max_limit self |}.

(** * The override of a request *)

(** The positive integer the request gives under [param], if any. *)
Definition override (host : Host) (param : option str) (request : Request)
  : option Z :=
  if truthy param then
    match get (query_params request) param with
    | Some raw =>
        match int_str host raw with
        | Ok n => if n >? 0 then Some n else None
        | Raise _ => None
        end
    | None => None
    end
  else None.

(* ================================================================== *)
(** * Facts about the host functions *)

Ltac bool_to_prop :=
  repeat match goal with
  | Hb : (_ && _) = true |- _ => apply andb_true_iff in Hb; destruct Hb
  | Hb : (_ || _) = true |- _ => apply orb_true_iff in Hb; destruct Hb
  | Hb : (_ && _) = false |- _ => apply andb_false_iff in Hb; destruct Hb
  | Hb : (_ || _) = false |- _ => apply orb_false_iff in Hb; destruct Hb
  | Hb : (_ <=? _)%N = true |- _ => apply N.leb_le in Hb
  | Hb : (_ <=? _)%N = false |- _ => apply N.leb_gt in Hb
  | Hb : (_ <? _)%N = true |- _ => apply N.ltb_lt in Hb
  | Hb : (_ <? _)%N = false |- _ => apply N.ltb_ge in Hb
  | Hb : (_ =? _)%N = true |- _ => apply N.eqb_eq in Hb
  | Hb : (_ =? _)%N = false |- _ => apply N.eqb_neq in Hb
  end.

(** Decide a closed boolean test on code points from bounds in the context. *)
Ltac decide_test :=
  match goal with
  | |- ?b = true =>
      let E := fresh "E" in
      destruct b eqn:E; [reflexivity | bool_to_prop; lia]
  | |- ?b = false =>
      let E := fresh "E" in
      destruct b eqn:E; [bool_to_prop; lia | reflexivity]
  end.

Section PlatformFacts.

Variable host : Host.

Lemma int_str_cases (s : str) :
  (exists v, int_str host s = Ok v) \/ int_str host s = Raise ValueError.
Proof.
  unfold int_str.
  destruct (PyLong_FromString host _) as [v|]; [left; now exists v | now right].
Qed.

Lemma int_str_empty : int_str host [] = Raise ValueError.
Proof. reflexivity. Qed.

(** A buffer whose first character is neither a blank, a sign, an
    underscore nor a digit is no literal. *)
Lemma PyLong_FromString_bad_head (c : codepoint) (t : str) :
  Py_ISSPACE c = false -> c <> 43%N -> c <> 45%N -> c <> 95%N ->
  ascii_isdigit c = false ->
  PyLong_FromString host (c :: t) = None.
Proof.
  intros Hsp Hplus Hminus Hus Hdig.
  apply N.eqb_neq in Hplus, Hminus, Hus.
  unfold PyLong_FromString. cbn [skip_spaces]. rewrite Hsp.
  cbn [parse_sign]. rewrite Hplus, Hminus.
  cbn [starts_with_underscore]. rewrite Hus.
  cbn [scan_digits]. rewrite Hus, Hdig. reflexivity.
Qed.

Lemma ascii_letter_bad_head (c : codepoint) :
  ascii_isalpha c = true ->
  Py_ISSPACE c = false /\ c <> 43%N /\ c <> 45%N /\ c <> 95%N
  /\ ascii_isdigit c = false.
Proof.
  intros Ha. unfold ascii_isalpha in Ha. unfold Py_ISSPACE, ascii_isdigit.
  bool_to_prop; repeat split; try lia; decide_test.
Qed.

(** The first code point of an alphabetic string. *)
Lemma transform_alpha_head (c : codepoint) (t : str) :
  Py_UNICODE_ISALPHA host c = true ->
  exists c' t',
    TransformDecimalAndSpaceToASCII host (c :: t) = c' :: t'
    /\ (ascii_isalpha c' = true \/ c' = 63%N).
Proof.
  intros Ha. unfold TransformDecimalAndSpaceToASCII.
  unfold Py_UNICODE_ISALPHA in Ha.
  destruct (is_ascii (c :: t)) eqn:Hascii.
  - cbn in Hascii. apply andb_true_iff in Hascii as [Hc _].
    rewrite Hc in Ha. exists c, t. auto.
  - cbn [transform_loop].
    destruct (c <? 127)%N eqn:H127.
    + assert (Hlt : (c <? 128)%N = true) by decide_test.
      rewrite Hlt in Ha. eexists _, _. split; [reflexivity | auto].
    + destruct (c <? 128)%N eqn:H128.
      * exfalso. unfold ascii_isalpha in Ha. bool_to_prop; lia.
      * unfold Py_UNICODE_ISSPACE, Py_UNICODE_TODECIMAL. rewrite H128.
        apply N.ltb_ge in H128.
        rewrite (ucd_alpha_not_space host c H128 Ha).
        rewrite (ucd_alpha_not_decimal host c H128 Ha).
        exists 63%N, []. auto.
Qed.

(** The alphabetic pre-filter only skips strings [int] would refuse. *)
Lemma isalpha_not_int (s : str) :
  isalpha host s = true -> int_str host s = Raise ValueError.
Proof.
  intros Ha. destruct s as [|c t]; [discriminate Ha|].
  cbn in Ha. apply andb_true_iff in Ha as [Hc _].
  destruct (transform_alpha_head c t Hc) as (c' & t' & Heq & Hhead).
  unfold int_str. rewrite Heq.
  rewrite PyLong_FromString_bad_head; [reflexivity | ..].
  all: destruct Hhead as [Hl| ->];
    [now apply ascii_letter_bad_head | first [reflexivity | discriminate]].
Qed.

(** ** The literals [int] accepts *)

Lemma skip_spaces_app (ws rest : str) :
  forallb Py_ISSPACE ws = true ->
  skip_spaces (ws ++ rest) = skip_spaces rest.
Proof.
  induction ws as [|c ws IH]; intros Hws; [reflexivity|].
  cbn in Hws. apply andb_true_iff in Hws as [Hc Hws].
  cbn. rewrite Hc. auto.
Qed.

Lemma skip_spaces_all (ws : str) :
  forallb Py_ISSPACE ws = true -> skip_spaces ws = [].
Proof.
  intros Hws. rewrite <- (app_nil_r ws). now rewrite skip_spaces_app.
Qed.

Lemma digit_char_facts (d : N) :
  (d <? 10)%N = true ->
  ascii_isdigit (digit_char d) = true
  /\ (digit_char d =? 95)%N = false
  /\ (digit_char d =? 43)%N = false
  /\ (digit_char d =? 45)%N = false
  /\ Py_ISSPACE (digit_char d) = false
  /\ (digit_char d <? 128)%N = true
  /\ (digit_char d - 48 = d)%N.
Proof.
  intros Hd. unfold ascii_isdigit, Py_ISSPACE, digit_char.
  bool_to_prop. repeat split; try decide_test. lia.
Qed.

(** Only whether the previous character was an underscore matters. *)
Lemma scan_digits_prev (s : str) (p q : codepoint) (n : N) (acc : Z) :
  (p =? 95)%N = (q =? 95)%N ->
  scan_digits s p n acc = scan_digits s q n acc.
Proof.
  intros Hpq. destruct s as [|c s]; cbn; rewrite Hpq; reflexivity.
Qed.

(** A group of digits is consumed whole. *)
Lemma scan_digits_group (ds : list N) :
  is_digits ds = true ->
  forall (rest : str) (prev : codepoint) (n : N) (acc : Z),
    scan_digits (digits_str ds ++ rest) prev n acc
    = scan_digits rest 0%N (n + N.of_nat (length ds))%N (value_from acc ds).
Proof.
  destruct ds as [|d ds]; [discriminate|].
  cbn [is_digits]. revert d.
  induction ds as [|d' ds IH]; intros d Hds rest prev n acc;
    cbn [forallb] in Hds; apply andb_true_iff in Hds as [Hd Hds];
    destruct (digit_char_facts d Hd) as (Hdig & Hus & _ & _ & _ & _ & Hval).
  - cbn [digits_str map app scan_digits length value_from fold_left].
    rewrite Hus, Hdig, Hval.
    apply scan_digits_prev. now rewrite Hus.
  - change (digits_str (d :: d' :: ds) ++ rest)
      with (digit_char d :: (digits_str (d' :: ds) ++ rest)).
    cbn [scan_digits]. rewrite Hus, Hdig, Hval.
    rewrite (IH d' Hds).
    change (length (d :: d' :: ds)) with (S (length (d' :: ds))).
    rewrite Nat2N.inj_succ.
    f_equal. lia.
Qed.

(** Further groups, each after one underscore, are consumed up to the
    first character that is neither a digit nor an underscore. *)
Lemma scan_digits_more_groups (gs : list (list N)) :
  forallb is_digits gs = true ->
  forall (rest : str) (n : N) (acc : Z),
    stops_scan rest ->
    scan_digits (more_groups gs ++ rest) 0%N n acc
    = Some (value_from acc (concat gs),
            (n + N.of_nat (length (concat gs)))%N, rest).
Proof.
  induction gs as [|g gs IH]; intros Hgs rest n acc Hrest.
  - cbn. rewrite N.add_0_r.
    destruct rest as [|c rest]; [reflexivity|].
    destruct Hrest as [Hus Hdig]. cbn. now rewrite Hus, Hdig.
  - cbn [forallb] in Hgs. apply andb_true_iff in Hgs as [Hg Hgs].
    unfold more_groups. cbn [flat_map].
    fold (more_groups gs).
    rewrite <- app_assoc. cbn [app scan_digits].
    change (95 =? 95)%N with true. change (0 =? 95)%N with false.
    cbn match.
    rewrite (scan_digits_group g Hg).
    rewrite (IH Hgs) by assumption.
    cbn [concat]. unfold value_from. rewrite fold_left_app.
    rewrite length_app, Nat2N.inj_add, N.add_assoc.
    reflexivity.
Qed.

Lemma spaces_stop_scan (ws : str) :
  forallb Py_ISSPACE ws = true -> stops_scan ws.
Proof.
  destruct ws as [|c ws]; [exact (fun _ => I)|].
  cbn. intros Hc. apply andb_true_iff in Hc as [Hc _].
  unfold Py_ISSPACE in Hc. unfold ascii_isdigit.
  split; bool_to_prop; decide_test.
Qed.

Lemma is_ascii_app (a b : str) :
  is_ascii (a ++ b) = is_ascii a && is_ascii b.
Proof. apply forallb_app. Qed.

Lemma is_ascii_spaces (ws : str) :
  forallb Py_ISSPACE ws = true -> is_ascii ws = true.
Proof.
  induction ws as [|c ws IH]; [reflexivity|].
  cbn [forallb]. intros Hws. apply andb_true_iff in Hws as [Hc Hws].
  change (is_ascii (c :: ws)) with ((c <? 128)%N && is_ascii ws).
  rewrite (IH Hws), andb_true_r.
  unfold Py_ISSPACE in Hc. bool_to_prop; decide_test.
Qed.

Lemma is_ascii_digits (ds : list N) :
  is_digits ds = true -> is_ascii (digits_str ds) = true.
Proof.
  destruct ds as [|d0 ds0]; [discriminate|]. cbn [is_digits].
  generalize (d0 :: ds0). clear d0 ds0.
  induction l as [|d ds IH]; [reflexivity|].
  cbn [forallb]. intros Hds. apply andb_true_iff in Hds as [Hd Hds].
  change (is_ascii (digits_str (d :: ds)))
    with ((digit_char d <? 128)%N && is_ascii (digits_str ds)).
  rewrite (IH Hds), andb_true_r.
  now destruct (digit_char_facts d Hd) as (_ & _ & _ & _ & _ & Hlt & _).
Qed.

Lemma is_ascii_more_groups (gs : list (list N)) :
  forallb is_digits gs = true -> is_ascii (more_groups gs) = true.
Proof.
  induction gs as [|g gs IH]; [reflexivity|].
  cbn [forallb]. intros Hgs. apply andb_true_iff in Hgs as [Hg Hgs].
  unfold more_groups. cbn [flat_map]. fold (more_groups gs).
  change (is_ascii ((95%N :: digits_str g) ++ more_groups gs))
    with (is_ascii (digits_str g ++ more_groups gs)).
  rewrite is_ascii_app, (is_ascii_digits g Hg), (IH Hgs). reflexivity.
Qed.

Lemma is_ascii_literal ws1 sg g gs ws2 :
  forallb Py_ISSPACE ws1 = true -> forallb Py_ISSPACE ws2 = true ->
  is_digits g = true -> forallb is_digits gs = true ->
  is_ascii (literal ws1 sg g gs ws2) = true.
Proof.
  intros H1 H2 Hg Hgs. unfold literal.
  rewrite !is_ascii_app, (is_ascii_spaces ws1), (is_ascii_spaces ws2),
    (is_ascii_digits g), (is_ascii_more_groups gs) by assumption.
  now destruct sg.
Qed.

Lemma skip_spaces_sign_digits (sg : sign) (g : list N) (rest : str) :
  is_digits g = true ->
  skip_spaces (sign_str sg ++ digits_str g ++ rest)
  = sign_str sg ++ digits_str g ++ rest.
Proof.
  intros Hg. destruct sg; try reflexivity.
  destruct g as [|d ds]; [discriminate|].
  cbn in Hg. apply andb_true_iff in Hg as [Hd _].
  destruct (digit_char_facts d Hd) as (_ & _ & _ & _ & Hsp & _).
  cbn [sign_str app digits_str map skip_spaces]. now rewrite Hsp.
Qed.

(** The sign and what follows it. *)
Lemma parse_sign_literal (sg : sign) (g : list N) (rest : str) :
  is_digits g = true ->
  parse_sign (sign_str sg ++ digits_str g ++ rest)
  = (sign_val sg, digits_str g ++ rest).
Proof.
  intros Hg. destruct sg; try reflexivity.
  destruct g as [|d ds]; [discriminate|].
  cbn in Hg. apply andb_true_iff in Hg as [Hd _].
  destruct (digit_char_facts d Hd) as (_ & _ & Hp & Hm & _).
  cbn [sign_str app digits_str map parse_sign]. now rewrite Hp, Hm.
Qed.

(** [int] accepts every literal of that shape with the value of its
    digits, unless they are more than the interpreter's limit allows. *)
Lemma int_str_literal ws1 sg g gs ws2 :
  forallb Py_ISSPACE ws1 = true -> forallb Py_ISSPACE ws2 = true ->
  is_digits g = true -> forallb is_digits gs = true ->
  int_str host (literal ws1 sg g gs ws2)
  = if exceeds_digit_limit host (digit_count g gs)
    then Raise ValueError
    else Ok (sign_val sg * value_of (g ++ concat gs)).
Proof.
  intros H1 H2 Hg Hgs.
  unfold int_str, TransformDecimalAndSpaceToASCII.
  rewrite is_ascii_literal by assumption.
  unfold literal, PyLong_FromString.
  rewrite skip_spaces_app by assumption.
  rewrite <- (app_assoc (digits_str g)).
  rewrite skip_spaces_sign_digits, parse_sign_literal by assumption.
  assert (Hhead : starts_with_underscore
                    (digits_str g ++ more_groups gs ++ ws2) = false).
  { destruct g as [|d ds]; [discriminate|].
    cbn in Hg. apply andb_true_iff in Hg as [Hd _].
    now destruct (digit_char_facts d Hd) as (_ & Hus & _). }
  rewrite Hhead.
  rewrite (scan_digits_group g Hg).
  rewrite (scan_digits_more_groups gs Hgs) by now apply spaces_stop_scan.
  assert (Hcount : (0 + N.of_nat (length g) + N.of_nat (length (concat gs))
                    = digit_count g gs)%N).
  { unfold digit_count. rewrite length_app, Nat2N.inj_add. lia. }
  rewrite Hcount.
  assert (Hpos : (digit_count g gs =? 0)%N = false).
  { apply N.eqb_neq. unfold digit_count.
    destruct g; [discriminate|]. cbn [app length]. lia. }
  rewrite Hpos.
  destruct (exceeds_digit_limit host (digit_count g gs)); [reflexivity|].
  rewrite skip_spaces_all by assumption.
  unfold value_of, value_from. now rewrite fold_left_app.
Qed.

(** A plain run of digits is the literal without blanks, sign or
    underscores. *)
Lemma int_str_digits (ds : list N) :
  is_digits ds = true ->
  int_str host (digits_str ds)
  = if exceeds_digit_limit host (N.of_nat (length ds))
    then Raise ValueError
    else Ok (value_of ds).
Proof.
  intros Hds.
  pose proof (int_str_literal [] NoSign ds [] [] eq_refl eq_refl Hds eq_refl)
    as Hlit.
  unfold literal, digit_count in Hlit.
  cbn [sign_str more_groups flat_map concat app sign_val] in Hlit.
  rewrite !app_nil_r in Hlit. rewrite Hlit.
  destruct (exceeds_digit_limit host _); [reflexivity|].
  f_equal. destruct (value_of ds); reflexivity.
Qed.

(** ** The resolvers as functions of the override *)

Ltac resolver_cases :=
  unfold override;
  match goal with
  | |- context [truthy ?param && truthy (get ?q ?param)] =>
      destruct (truthy param); [|reflexivity];
      destruct (get q param) as [[|? ?]|]; [reflexivity | | reflexivity];
      cbn [truthy andb call_isalpha int bind try_except_pass]
  end;
  match goal with
  | |- context [isalpha ?h ?s] =>
      let Halpha := fresh "Halpha" in
      let Hv := fresh "Hv" in
      let v := fresh "v" in
      destruct (isalpha h s) eqn:Halpha;
      [ rewrite (isalpha_not_int s Halpha); reflexivity
      | destruct (int_str_cases s) as [[v Hv]|Hv]; rewrite Hv;
        [ cbn [bind]; destruct (v >? 0); reflexivity
        | reflexivity ] ]
  end.

Lemma get_limit_override self request :
  get_limit host self request
  = Ok (match override host (limit_query_param self) request with
        | Some n => Z.min (Z.max n (min_limit self)) (max_limit self)
        | None => default_limit self
        end).
Proof. unfold get_limit. resolver_cases. Qed.

Lemma pn_get_page_size_override self request :
  DefaultPageNumberPagination.get_page_size host self request
  = Ok (match override host
                (DefaultPageNumberPagination.page_size_query_param self)
                request with
        | Some n => Z.min n (DefaultPageNumberPagination.max_page_size self)
        | None => DefaultPageNumberPagination.page_size self
        end).
Proof. unfold DefaultPageNumberPagination.get_page_size. resolver_cases. Qed.

Lemma cu_get_page_size_override self request :
  DefaultCursorPagination.get_page_size host self request
  = Ok (match override host
                (DefaultCursorPagination.page_size_query_param self)
                request with
        | Some n => Z.min n (DefaultCursorPagination.max_page_size self)
        | None => DefaultCursorPagination.page_size self
        end).
Proof. unfold DefaultCursorPagination.get_page_size. resolver_cases. Qed.

Lemma resolve_override (p : Paginator) (request : Request) :
  resolve host p request
  = Ok (match override host (query_param p) request with
        | Some n => clamp p n
        | None => default_size p
        end).
Proof.
  destruct p; cbn [resolve query_param clamp default_size];
    auto using get_limit_override, pn_get_page_size_override,
      cu_get_page_size_override.
Qed.

Lemma override_positive param request n :
  override host param request = Some n -> 0 < n.
Proof.
  unfold override. destruct (truthy param); [|discriminate].
  destruct (get _ _) as [raw|]; [|discriminate].
  destruct (int_str host raw) as [v|]; [|discriminate].
  destruct (Z.gtb_spec v 0); [|discriminate].
  intros [= <-]. assumption.
Qed.

Lemma override_parsed param request raw v :
  truthy param = true ->
  get (query_params request) param = Some raw ->
  int_str host raw = Ok v ->
  override host param request = if v >? 0 then Some v else None.
Proof.
  intros Hp Hget Hint. unfold override. now rewrite Hp, Hget, Hint.
Qed.

Lemma override_invalid param request raw :
  get (query_params request) param = Some raw ->
  int_str host raw = Raise ValueError ->
  override host param request = None.
Proof.
  intros Hget Hint. unfold override. rewrite Hget, Hint.
  now destruct (truthy param).
Qed.

Lemma override_missing param request :
  truthy param = false \/ get (query_params request) param = None
  \/ get (query_params request) param = Some [] ->
  override host param request = None.
Proof.
  unfold override. intros [Hp | [Hget | Hget]].
  - now rewrite Hp.
  - rewrite Hget. now destruct (truthy param).
  - rewrite Hget. now destruct (truthy param).
Qed.

End PlatformFacts.

(* ================================================================== *)
(** * The specification's algorithm against the code *)

Lemma spec_resolve_override host param minValue maxValue defaultValue request :
  spec_resolve host param minValue maxValue defaultValue request
  = match override host param request with
    | Some n => Z.min (Z.max n minValue) maxValue
    | None => defaultValue
    end.
Proof.
  unfold spec_resolve, override.
  destruct (truthy param); [|reflexivity]. cbn [negb].
  destruct (get (query_params request) param) as [[|c raw]|];
    [reflexivity | | reflexivity].
  destruct (isalpha host (c :: raw)) eqn:Halpha.
  - now rewrite (isalpha_not_int host _ Halpha).
  - destruct (int_str host (c :: raw)) as [v|]; [|reflexivity].
    destruct (Z.leb_spec v 0), (Z.gtb_spec v 0); try reflexivity; lia.
Qed.

(** The offset class is the specification's algorithm with
    [minValue := min_limit]. *)
Lemma get_limit_spec host self request :
  get_limit host self request
  = Ok (spec_resolve host (limit_query_param self) (min_limit self)
          (max_limit self) (default_limit self) request).
Proof. now rewrite get_limit_override, spec_resolve_override. Qed.

(** A lower bound below 1 never changes what the upper clamp alone gives
    for a positive value. *)
Lemma low_floor_is_inert (n m mx : Z) :
  0 < n -> m < 1 -> Z.min (Z.max n m) mx = Z.min n mx.
Proof. lia. Qed.

(** So two settings of [min_limit] below 1 cannot be told apart either: the
    offset class depends on [min_limit] only through values above 1. *)
Lemma get_limit_low_floors_agree host self request (m m' : Z) :
  m < 1 -> m' < 1 ->
  get_limit host (with_min_limit self m) request
  = get_limit host (with_min_limit self m') request.
Proof.
  intros Hm Hm'. rewrite !get_limit_override. cbn [with_min_limit
    limit_query_param min_limit max_limit default_limit].
  destruct (override host (limit_query_param self) request) as [n|] eqn:Hov;
    [|reflexivity].
  apply override_positive in Hov.
  now rewrite !low_floor_is_inert.
Qed.

(* ================================================================== *)
(** * The properties of the specification *)

(** C1: under the policy invariant (lower bound <= default <= upper bound,
    the lower bound of the two page-size classes being 1), every resolver
    returns, for every request, an integer between its lower bound and its
    upper bound: [get_limit] in [[min_limit, max_limit]], both
    [get_page_size] in [[1, max_page_size]]. *)
Theorem resolved_size_within_bounds
        (host : Host) (p : Paginator) (request : Request) :
  lower_bound p <= default_size p <= upper_bound p ->
  exists n : Z,
    resolve host p request = Ok n /\ lower_bound p <= n <= upper_bound p.
Proof.
  intros Hinv. rewrite resolve_override.
  destruct (override host (query_param p) request) as [n|] eqn:Hov.
  - exists (clamp p n). split; [reflexivity|].
    apply override_positive in Hov.
    destruct p; cbn [clamp lower_bound upper_bound default_size] in *; lia.
  - exists (default_size p). split; [reflexivity | exact Hinv].
Qed.

Lemma resolved_size_within_bounds_witness :
  (lower_bound (LimitOffset limit_offset_defaults)
   <= default_size (LimitOffset limit_offset_defaults)
   <= upper_bound (LimitOffset limit_offset_defaults))
  /\ (exists n : Z,
         resolve cpython_latin1 (LimitOffset limit_offset_defaults)
                 (request_with "limit" "9999") = Ok n
         /\ 1 <= n <= 100)
  /\ (exists n : Z,
         resolve cpython_latin1 (PageNumber page_number_defaults)
                 (request_with "page_size" "-3") = Ok n
         /\ 1 <= n <= 100)
  /\ (exists n : Z,
         resolve cpython_latin1 (Cursor cursor_defaults)
                 (request_with "page_size" "7") = Ok n
         /\ 1 <= n <= 100).
Proof.
  split; [cbn; lia|]. split; [|split].
  - apply (resolved_size_within_bounds cpython_latin1
             (LimitOffset limit_offset_defaults)). cbn; lia.
  - apply (resolved_size_within_bounds cpython_latin1
             (PageNumber page_number_defaults)). cbn; lia.
  - apply (resolved_size_within_bounds cpython_latin1
             (Cursor cursor_defaults)). cbn; lia.
Defined.

(** C2: no resolver raises: for every host, paginator and request
    (parameter absent, empty, non-numeric, negative, zero or arbitrarily
    long) the call returns an integer. *)
Theorem resolvers_never_raise
        (host : Host) (p : Paginator) (request : Request) :
  exists n : Z, resolve host p request = Ok n.
Proof. rewrite resolve_override. eauto. Qed.

(** C3: when the raw value parses to an integer that is zero or negative,
    every resolver returns its default; the value is not clamped up to the
    lower bound. *)
Theorem nonpositive_value_gives_default
        (host : Host) (p : Paginator) (request : Request) (raw : str) (v : Z) :
  get (query_params request) (query_param p) = Some raw ->
  int_str host raw = Ok v ->
  v <= 0 ->
  resolve host p request = Ok (default_size p).
Proof.
  intros Hget Hint Hv. rewrite resolve_override.
  destruct (override host (query_param p) request) as [n|] eqn:Hov;
    [|reflexivity].
  pose proof (override_positive host _ _ _ Hov) as Hpos.
  unfold override in Hov. rewrite Hget, Hint in Hov.
  destruct (truthy (query_param p)); [|discriminate].
  destruct (Z.gtb_spec v 0); [lia | discriminate].
Qed.

Lemma nonpositive_value_gives_default_witness :
  resolve cpython_latin1
          (LimitOffset {| limit_query_param := Some (str_of "limit");
                          min_limit := 5; max_limit := 100;
                          default_limit := 10 |})
          (request_with "limit" "0") = Ok 10
  /\ resolve cpython_latin1 (PageNumber page_number_defaults)
             (request_with "page_size" "-5") = Ok 10
  /\ resolve cpython_latin1 (Cursor cursor_defaults)
             (request_with "page_size" "-5") = Ok 10.
Proof.
  split; [|split].
  - apply (nonpositive_value_gives_default cpython_latin1
             (LimitOffset {| limit_query_param := Some (str_of "limit");
                             min_limit := 5; max_limit := 100;
                             default_limit := 10 |})
             (request_with "limit" "0") (str_of "0") 0);
      [reflexivity | reflexivity | lia].
  - apply (nonpositive_value_gives_default cpython_latin1
             (PageNumber page_number_defaults)
             (request_with "page_size" "-5") (str_of "-5") (-5));
      [reflexivity | reflexivity | lia].
  - apply (nonpositive_value_gives_default cpython_latin1
             (Cursor cursor_defaults)
             (request_with "page_size" "-5") (str_of "-5") (-5));
      [reflexivity | reflexivity | lia].
Defined.

(** C4: when the query parameter name is not configured ([None] or empty),
    or the request has no such parameter, or its value is the empty string,
    every resolver returns its default. *)
Theorem missing_override_gives_default
        (host : Host) (p : Paginator) (request : Request) :
  truthy (query_param p) = false
  \/ get (query_params request) (query_param p) = None
  \/ get (query_params request) (query_param p) = Some [] ->
  resolve host p request = Ok (default_size p).
Proof.
  intros Hmiss. rewrite resolve_override.
  now rewrite (override_missing host _ _ Hmiss).
Qed.

Lemma missing_override_gives_default_witness :
  resolve cpython_latin1
          (LimitOffset {| limit_query_param := None; min_limit := 1;
                          max_limit := 100; default_limit := 10 |})
          (request_with "limit" "50") = Ok 10
  /\ resolve cpython_latin1 (PageNumber page_number_defaults)
             (request_with "page" "2") = Ok 10
  /\ resolve cpython_latin1 (Cursor cursor_defaults)
             (request_with "page_size" "") = Ok 10.
Proof.
  split; [|split].
  - apply (missing_override_gives_default cpython_latin1
             (LimitOffset {| limit_query_param := None; min_limit := 1;
                             max_limit := 100; default_limit := 10 |})).
    left. reflexivity.
  - apply (missing_override_gives_default cpython_latin1
             (PageNumber page_number_defaults)).
    right. left. reflexivity.
  - apply (missing_override_gives_default cpython_latin1
             (Cursor cursor_defaults)).
    right. right. reflexivity.
Defined.

(** C5: when the raw value is entirely alphabetic (such as abc), or [int]
    refuses it as a base-10 integer (such as 0.5, which is not truncated),
    every resolver returns its default. *)
Theorem unparsable_value_gives_default
        (host : Host) (p : Paginator) (request : Request) (raw : str) :
  get (query_params request) (query_param p) = Some raw ->
  isalpha host raw = true \/ int_str host raw = Raise ValueError ->
  resolve host p request = Ok (default_size p).
Proof.
  intros Hget Hbad. rewrite resolve_override.
  assert (Hint : int_str host raw = Raise ValueError).
  { destruct Hbad as [Halpha|Hint]; [now apply isalpha_not_int | exact Hint]. }
  now rewrite (override_invalid host _ _ _ Hget Hint).
Qed.

Lemma unparsable_value_gives_default_witness :
  resolve cpython_latin1 (LimitOffset limit_offset_defaults)
          (request_with "limit" "abc") = Ok 10
  /\ resolve cpython_latin1 (LimitOffset limit_offset_defaults)
             (request_with "limit" "0.5") = Ok 10
  /\ resolve cpython_latin1 (PageNumber page_number_defaults)
             (request_with "page_size" "0.5") = Ok 10
  /\ resolve cpython_latin1 (Cursor cursor_defaults)
             (request_with "page_size" "abc") = Ok 10.
Proof.
  split; [|split; [|split]].
  - apply (unparsable_value_gives_default cpython_latin1
             (LimitOffset limit_offset_defaults)
             (request_with "limit" "abc") (str_of "abc"));
      [reflexivity | left; reflexivity].
  - apply (unparsable_value_gives_default cpython_latin1
             (LimitOffset limit_offset_defaults)
             (request_with "limit" "0.5") (str_of "0.5"));
      [reflexivity | right; reflexivity].
  - apply (unparsable_value_gives_default cpython_latin1
             (PageNumber page_number_defaults)
             (request_with "page_size" "0.5") (str_of "0.5"));
      [reflexivity | right; reflexivity].
  - apply (unparsable_value_gives_default cpython_latin1
             (Cursor cursor_defaults)
             (request_with "page_size" "abc") (str_of "abc"));
      [reflexivity | left; reflexivity].
Defined.

(** C6: for the offset class, when the raw value parses to a positive
    integer [v], [get_limit] returns [min(max(v, min_limit), max_limit)]:
    a value in range is returned unchanged and a value above the upper
    bound is clamped to it, not replaced by the default. *)
Theorem get_limit_clamps_positive_value
        (host : Host) (self : DefaultLimitOffsetPagination.t)
        (request : Request) (raw : str) (v : Z) :
  truthy (limit_query_param self) = true ->
  get (query_params request) (limit_query_param self) = Some raw ->
  int_str host raw = Ok v ->
  0 < v ->
  get_limit host self request
  = Ok (Z.min (Z.max v (min_limit self)) (max_limit self)).
Proof.
  intros Hparam Hget Hint Hpos.
  rewrite get_limit_override,
    (override_parsed host _ _ _ _ Hparam Hget Hint).
  destruct (Z.gtb_spec v 0); [reflexivity | lia].
Qed.

Lemma get_limit_clamps_positive_value_witness :
  get_limit cpython_latin1 limit_offset_defaults (request_with "limit" "50")
  = Ok 50
  /\ get_limit cpython_latin1 limit_offset_defaults
               (request_with "limit" "9999")
     = Ok 100.
Proof.
  split.
  - apply (get_limit_clamps_positive_value cpython_latin1
             limit_offset_defaults (request_with "limit" "50")
             (str_of "50") 50); [reflexivity | reflexivity | reflexivity | lia].
  - apply (get_limit_clamps_positive_value cpython_latin1
             limit_offset_defaults (request_with "limit" "9999")
             (str_of "9999") 9999);
      [reflexivity | reflexivity | reflexivity | lia].
Defined.

(** C7: the page-number and cursor classes apply the upper bound only: a
    positive parsed value [v] resolves to [min(v, max_page_size)], and for
    every lower bound [m] below 1 their result is the one the
    specification's algorithm gives with [minValue := m], so such a bound
    has no effect.  The offset class is that algorithm with
    [minValue := min_limit], and its result depends on [min_limit]. *)
Theorem page_size_ignores_lower_bound
        (host : Host) (request : Request) (m : Z) :
  m < 1 ->
  (forall self : DefaultPageNumberPagination.t,
      DefaultPageNumberPagination.get_page_size host self request
      = Ok (spec_resolve host
              (DefaultPageNumberPagination.page_size_query_param self) m
              (DefaultPageNumberPagination.max_page_size self)
              (DefaultPageNumberPagination.page_size self) request))
  /\ (forall self : DefaultCursorPagination.t,
         DefaultCursorPagination.get_page_size host self request
         = Ok (spec_resolve host
                 (DefaultCursorPagination.page_size_query_param self) m
                 (DefaultCursorPagination.max_page_size self)
                 (DefaultCursorPagination.page_size self) request))
  /\ (forall (self : DefaultPageNumberPagination.t) (raw : str) (v : Z),
         truthy (DefaultPageNumberPagination.page_size_query_param self)
         = true ->
         get (query_params request)
             (DefaultPageNumberPagination.page_size_query_param self)
         = Some raw ->
         int_str host raw = Ok v ->
         0 < v ->
         DefaultPageNumberPagination.get_page_size host self request
         = Ok (Z.min v (DefaultPageNumberPagination.max_page_size self)))
  /\ (forall (self : DefaultCursorPagination.t) (raw : str) (v : Z),
         truthy (DefaultCursorPagination.page_size_query_param self) = true ->
         get (query_params request)
             (DefaultCursorPagination.page_size_query_param self)
         = Some raw ->
         int_str host raw = Ok v ->
         0 < v ->
         DefaultCursorPagination.get_page_size host self request
         = Ok (Z.min v (DefaultCursorPagination.max_page_size self)))
  /\ (forall self : DefaultLimitOffsetPagination.t,
         get_limit host self request
         = Ok (spec_resolve host (limit_query_param self) (min_limit self)
                 (max_limit self) (default_limit self) request))
  /\ (exists (self : DefaultLimitOffsetPagination.t) (m' : Z)
             (request' : Request),
         get_limit host (with_min_limit self m') request'
         <> get_limit host self request').
Proof.
  intros Hm. repeat apply conj.
  - intros self.
    rewrite pn_get_page_size_override, spec_resolve_override.
    destruct (override host _ request) as [n|] eqn:Hov; [|reflexivity].
    apply override_positive in Hov.
    now rewrite low_floor_is_inert.
  - intros self.
    rewrite cu_get_page_size_override, spec_resolve_override.
    destruct (override host _ request) as [n|] eqn:Hov; [|reflexivity].
    apply override_positive in Hov.
    now rewrite low_floor_is_inert.
  - intros self raw v Hparam Hget Hint Hpos.
    rewrite pn_get_page_size_override,
      (override_parsed host _ _ _ _ Hparam Hget Hint).
    destruct (Z.gtb_spec v 0); [reflexivity | lia].
  - intros self raw v Hparam Hget Hint Hpos.
    rewrite cu_get_page_size_override,
      (override_parsed host _ _ _ _ Hparam Hget Hint).
    destruct (Z.gtb_spec v 0); [reflexivity | lia].
  - intros self. apply get_limit_spec.
  - exists limit_offset_defaults, 5, (request_with "limit" "3").
    vm_compute. discriminate.
Qed.

Lemma page_size_ignores_lower_bound_witness :
  -7 < 1
  /\ DefaultPageNumberPagination.get_page_size
       cpython_latin1 page_number_defaults
                      (request_with "page_size" "250")
     = Ok (spec_resolve cpython_latin1 (Some (str_of "page_size")) (-7) 100 10
             (request_with "page_size" "250"))
  /\ DefaultCursorPagination.get_page_size cpython_latin1 cursor_defaults
                      (request_with "page_size" "3")
     = Ok (spec_resolve cpython_latin1 (Some (str_of "page_size")) (-7) 100 10
             (request_with "page_size" "3")).
Proof.
  assert (Hm : -7 < 1) by lia.
  split; [exact Hm|]. split.
  - exact (proj1 (page_size_ignores_lower_bound cpython_latin1
                    (request_with "page_size" "250") (-7) Hm)
                 page_number_defaults).
  - exact (proj1 (proj2 (page_size_ignores_lower_bound cpython_latin1
                           (request_with "page_size" "3") (-7) Hm))
                 cursor_defaults).
Defined.

(** C8, as stated, fails: a 30-digit literal is not replaced by the
    default; every resolver returns its upper bound 100, and the default
    is 10. *)
Lemma thirty_digit_literal_is_not_defaulted :
  resolve cpython_latin1 (LimitOffset limit_offset_defaults)
          (request_with "limit" "123456789012345678901234567890")
  <> Ok (default_size (LimitOffset limit_offset_defaults))
  /\ resolve cpython_latin1 (PageNumber page_number_defaults)
             (request_with "page_size" "123456789012345678901234567890")
     <> Ok (default_size (PageNumber page_number_defaults))
  /\ resolve cpython_latin1 (Cursor cursor_defaults)
             (request_with "page_size" "123456789012345678901234567890")
     <> Ok (default_size (Cursor cursor_defaults))
  /\ resolve cpython_latin1 (LimitOffset limit_offset_defaults)
             (request_with "limit" "123456789012345678901234567890")
     = Ok 100.
Proof.
  repeat apply conj; vm_compute; congruence.
Qed.

(** C8, amended: Python integers are unbounded, so a raw value of decimal
    digits is parsed exactly whatever its magnitude; when positive it is a
    valid override, clamped like any other (to the upper bound when it is at
    least that bound).  Only when the digits are more than the interpreter's
    limit does [int] raise, and then every resolver returns its default. *)
Theorem numeric_literal_of_any_magnitude
        (host : Host) (p : Paginator) (request : Request) (ds : list N) :
  truthy (query_param p) = true ->
  get (query_params request) (query_param p) = Some (digits_str ds) ->
  is_digits ds = true ->
  0 < value_of ds ->
  resolve host p request
  = Ok (if exceeds_digit_limit host (N.of_nat (length ds))
        then default_size p
        else clamp p (value_of ds))
  /\ (upper_bound p <= value_of ds -> clamp p (value_of ds) = upper_bound p).
Proof.
  intros Hparam Hget Hds Hpos. split.
  - pose proof (int_str_digits host ds Hds) as Hint.
    rewrite resolve_override.
    destruct (exceeds_digit_limit host (N.of_nat (length ds))).
    + now rewrite (override_invalid host _ _ _ Hget Hint).
    + rewrite (override_parsed host _ _ _ _ Hparam Hget Hint).
      destruct (Z.gtb_spec (value_of ds) 0); [reflexivity | lia].
  - intros Hbig. destruct p; cbn [clamp upper_bound] in *; lia.
Qed.

Lemma numeric_literal_of_any_magnitude_witness :
  resolve cpython_latin1 (LimitOffset limit_offset_defaults)
          (request_with_digits "limit" thirty_digits) = Ok 100
  /\ resolve cpython_latin1 (PageNumber page_number_defaults)
             (request_with_digits "page_size" (repeat 7%N 4301)) = Ok 10.
Proof.
  split.
  - exact (proj1 (numeric_literal_of_any_magnitude cpython_latin1
                    (LimitOffset limit_offset_defaults)
                    (request_with_digits "limit" thirty_digits)
                    thirty_digits eq_refl eq_refl eq_refl eq_refl)).
  - refine (eq_trans
              (proj1 (numeric_literal_of_any_magnitude cpython_latin1
                        (PageNumber page_number_defaults)
                        (request_with_digits "page_size" (repeat 7%N 4301))
                        (repeat 7%N 4301) eq_refl _ _ _)) _);
      vm_compute; reflexivity.
Defined.

(** C9: with the same [page_size], [page_size_query_param] and
    [max_page_size], the page-number and the cursor class resolve every
    request to the same result. *)
Theorem page_number_and_cursor_agree
        (host : Host) (page_size : Z) (page_size_query_param : option str)
        (max_page_size : Z) (ordering : str) (request : Request) :
  DefaultCursorPagination.get_page_size host
    {| DefaultCursorPagination.page_size := page_size;
       DefaultCursorPagination.page_size_query_param := page_size_query_param;
       DefaultCursorPagination.max_page_size := max_page_size;
       DefaultCursorPagination.ordering := ordering |} request
  = DefaultPageNumberPagination.get_page_size host
      {| DefaultPageNumberPagination.page_size := page_size;
         DefaultPageNumberPagination.page_size_query_param :=
           page_size_query_param;
         DefaultPageNumberPagination.max_page_size := max_page_size |} request.
Proof. reflexivity. Qed.

(** C10: a raw value made of optional blanks, an optional plus sign, groups
    of digits joined by single underscores and optional blanks (such as
    " 42 ", "+42" and "4_2", all of value 42) is a valid override: when its
    value is positive every resolver returns that value clamped, not the
    default. *)
Theorem padded_signed_grouped_literal_accepted
        (host : Host) (p : Paginator) (request : Request)
        (ws1 ws2 : str) (sg : sign) (g : list N) (gs : list (list N)) :
  truthy (query_param p) = true ->
  get (query_params request) (query_param p)
  = Some (literal ws1 sg g gs ws2) ->
  forallb Py_ISSPACE ws1 = true ->
  forallb Py_ISSPACE ws2 = true ->
  sg <> Minus ->
  is_digits g = true ->
  forallb is_digits gs = true ->
  exceeds_digit_limit host (digit_count g gs) = false ->
  0 < value_of (g ++ concat gs) ->
  resolve host p request = Ok (clamp p (value_of (g ++ concat gs))).
Proof.
  intros Hparam Hget Hws1 Hws2 Hsg Hg Hgs Hlim Hpos.
  pose proof (int_str_literal host ws1 sg g gs ws2 Hws1 Hws2 Hg Hgs) as Hint.
  rewrite Hlim in Hint.
  assert (Hone : sign_val sg = 1)
    by (destruct sg; [reflexivity.. | congruence]).
  rewrite Hone, Z.mul_1_l in Hint.
  rewrite resolve_override,
    (override_parsed host _ _ _ _ Hparam Hget Hint).
  destruct (Z.gtb_spec (value_of (g ++ concat gs)) 0); [reflexivity | lia].
Qed.

Lemma padded_signed_grouped_literal_accepted_witness :
  resolve cpython_latin1 (LimitOffset limit_offset_defaults)
          (request_with "limit" " 42 ") = Ok 42
  /\ resolve cpython_latin1 (PageNumber page_number_defaults)
             (request_with "page_size" "+42") = Ok 42
  /\ resolve cpython_latin1 (Cursor cursor_defaults)
             (request_with "page_size" "4_2") = Ok 42.
Proof.
  split; [|split].
  - apply (padded_signed_grouped_literal_accepted cpython_latin1
             (LimitOffset limit_offset_defaults)
             (request_with "limit" " 42 ")
             [32%N] [32%N] NoSign [4%N; 2%N] []);
      first [reflexivity | discriminate].
  - apply (padded_signed_grouped_literal_accepted cpython_latin1
             (PageNumber page_number_defaults)
             (request_with "page_size" "+42")
             [] [] Plus [4%N; 2%N] []);
      first [reflexivity | discriminate].
  - apply (padded_signed_grouped_literal_accepted cpython_latin1
             (Cursor cursor_defaults)
             (request_with "page_size" "4_2")
             [] [] NoSign [4%N] [[2%N]]);
      first [reflexivity | discriminate].
Defined.

(* ================================================================== *)
(** * What [int] refuses *)

Section IntRefuses.

Variable host : Host.

Lemma skip_spaces_chars (b : str) :
  forallb ascii_int_char (skip_spaces b) = true ->
  forallb ascii_int_char b = true.
Proof.
  induction b as [|c b IH]; [reflexivity|].
  cbn [skip_spaces]. destruct (Py_ISSPACE c) eqn:Hsp; [|exact (fun Hb => Hb)].
  intros Hb. cbn [forallb]. rewrite (IH Hb), andb_true_r.
  unfold ascii_int_char. now rewrite Hsp.
Qed.

Lemma skipped_to_end_chars (b : str) :
  skip_spaces b = [] -> forallb ascii_int_char b = true.
Proof.
  intros Hb. apply skip_spaces_chars. now rewrite Hb.
Qed.

Lemma parse_sign_chars (b s2 : str) (sg : Z) :
  parse_sign b = (sg, s2) ->
  forallb ascii_int_char s2 = true ->
  forallb ascii_int_char b = true.
Proof.
  destruct b as [|c b]; cbn [parse_sign].
  - now intros [= _ <-].
  - destruct (c =? 43)%N eqn:Hplus; [|destruct (c =? 45)%N eqn:Hminus].
    + intros [= _ <-] Hb. cbn [forallb]. rewrite Hb, andb_true_r.
      unfold ascii_int_char. rewrite Hplus. now rewrite !orb_true_r.
    + intros [= _ <-] Hb. cbn [forallb]. rewrite Hb, andb_true_r.
      unfold ascii_int_char. rewrite Hminus. now rewrite !orb_true_r.
    + now intros [= _ <-].
Qed.

Lemma scan_digits_chars (s : str) :
  forall (prev : codepoint) (n : N) (acc v : Z) (n' : N) (rest : str),
    scan_digits s prev n acc = Some (v, n', rest) ->
    forallb ascii_int_char rest = true ->
    forallb ascii_int_char s = true.
Proof.
  induction s as [|c s IH]; intros prev n acc v n' rest; cbn [scan_digits].
  - reflexivity.
  - destruct (c =? 95)%N eqn:Hus.
    + destruct (prev =? 95)%N; [discriminate|].
      intros Hscan Hrest. cbn [forallb].
      rewrite (IH _ _ _ _ _ _ Hscan Hrest), andb_true_r.
      unfold ascii_int_char. rewrite Hus. now rewrite !orb_true_r.
    + destruct (ascii_isdigit c) eqn:Hdig.
      * intros Hscan Hrest. cbn [forallb].
        rewrite (IH _ _ _ _ _ _ Hscan Hrest), andb_true_r.
        unfold ascii_int_char. rewrite Hdig. now rewrite !orb_true_r.
      * destruct (prev =? 95)%N; [discriminate|].
        now intros [= _ _ <-].
Qed.

(** An accepted buffer holds nothing but the characters of a literal. *)
Lemma PyLong_FromString_chars (b : str) (v : Z) :
  PyLong_FromString host b = Some v -> forallb ascii_int_char b = true.
Proof.
  unfold PyLong_FromString.
  destruct (parse_sign (skip_spaces b)) as [sg s2] eqn:Hsign.
  destruct (starts_with_underscore s2); [discriminate|].
  destruct (scan_digits s2 0%N 0%N 0) as [[[w n] rest]|] eqn:Hscan;
    [|discriminate].
  destruct (n =? 0)%N; [discriminate|].
  destruct (exceeds_digit_limit host n); [discriminate|].
  destruct (skip_spaces rest) eqn:Hrest; [|discriminate].
  intros _. apply skip_spaces_chars.
  apply (parse_sign_chars _ _ _ Hsign).
  apply (scan_digits_chars _ _ _ _ _ _ _ Hscan).
  now apply skipped_to_end_chars.
Qed.

Lemma ascii_chars_ok (s : str) :
  is_ascii s = true ->
  forallb ascii_int_char s = true ->
  forallb (int_char_ok host) s = true.
Proof.
  induction s as [|c s IH]; [reflexivity|].
  cbn [is_ascii forallb]. intros Hascii Hs.
  apply andb_true_iff in Hascii as [Hc Hascii].
  apply andb_true_iff in Hs as [Hok Hs].
  rewrite (IH Hascii Hs), andb_true_r.
  unfold int_char_ok. now rewrite Hc.
Qed.

Lemma transform_loop_chars (s : str) :
  forallb ascii_int_char (transform_loop host s) = true ->
  forallb (int_char_ok host) s = true.
Proof.
  induction s as [|ch s IH]; [reflexivity|].
  cbn [transform_loop forallb].
  destruct (ch <? 127)%N eqn:H127.
  - cbn [forallb]. intros Hs. apply andb_true_iff in Hs as [Hok Hs].
    rewrite (IH Hs), andb_true_r.
    assert (Hlt : (ch <? 128)%N = true) by decide_test.
    unfold int_char_ok. now rewrite Hlt.
  - remember (forallb (int_char_ok host) s) as tl eqn:Htl.
    unfold Py_UNICODE_ISSPACE, Py_UNICODE_TODECIMAL, int_char_ok.
    destruct (ch <? 128)%N eqn:H128.
    + assert (Hsp : ((9 <=? ch) && (ch <=? 13)
                     || (28 <=? ch) && (ch <=? 32))%N = false)
        by decide_test.
      assert (Hdig : ascii_isdigit ch = false)
        by (unfold ascii_isdigit; decide_test).
      rewrite Hsp, Hdig. discriminate.
    + destruct (ucd_isspace host ch).
      * cbn [forallb orb]. intros Hs.
        apply andb_true_iff in Hs as [_ Hs]. now rewrite (IH Hs).
      * destruct (ucd_todecimal host ch) as [d|]; [|discriminate].
        cbn [forallb orb]. intros Hs.
        apply andb_true_iff in Hs as [_ Hs]. now rewrite (IH Hs).
Qed.

(** Whatever [int] accepts is made of acceptable code points only. *)
Lemma int_str_chars (s : str) (v : Z) :
  int_str host s = Ok v -> forallb (int_char_ok host) s = true.
Proof.
  unfold int_str, TransformDecimalAndSpaceToASCII.
  destruct (PyLong_FromString host _) as [w|] eqn:Hparse; [|discriminate].
  intros _. apply PyLong_FromString_chars in Hparse.
  destruct (is_ascii s) eqn:Hascii.
  - now apply ascii_chars_ok.
  - now apply transform_loop_chars.
Qed.

Lemma stray_character_refused (s : str) (c : codepoint) :
  In c s -> int_char_ok host c = false -> int_str host s = Raise ValueError.
Proof.
  intros Hin Hbad.
  destruct (int_str_cases host s) as [[v Hv]|Hv]; [|exact Hv].
  apply int_str_chars in Hv.
  rewrite forallb_forall in Hv. rewrite (Hv c Hin) in Hbad. discriminate.
Qed.

Lemma value_from_nonneg (ds : list N) :
  forall acc : Z, 0 <= acc -> 0 <= value_from acc ds.
Proof.
  induction ds as [|d ds IH]; intros acc Hacc; [exact Hacc|].
  cbn [value_from fold_left]. apply IH. lia.
Qed.

End IntRefuses.

(* ================================================================== *)
(** * The query dictionary *)

Lemma str_eqb_refl (a : str) : str_eqb a a = true.
Proof. unfold str_eqb. now destruct (list_eq_dec N.eq_dec a a). Qed.

Lemma str_eqb_neq (a b : str) : a <> b -> str_eqb a b = false.
Proof. unfold str_eqb. now destruct (list_eq_dec N.eq_dec a b). Qed.

Lemma get_other_names (q : QueryDict) (name : str) :
  (forall k v, In (k, v) q -> k <> name) -> get q (Some name) = None.
Proof.
  induction q as [|[k v] q IH]; intros Hq; [reflexivity|].
  cbn [get]. rewrite IH by (intros k' v' Hin; apply (Hq k' v'); now right).
  rewrite str_eqb_neq; [reflexivity|]. apply (Hq k v). now left.
Qed.

Lemma get_last_occurrence (q1 q2 : QueryDict) (name value : str) :
  (forall k v, In (k, v) q2 -> k <> name) ->
  get (q1 ++ (name, value) :: q2) (Some name) = Some value.
Proof.
  intros Hq2. induction q1 as [|[k v] q1 IH].
  - cbn [app get]. now rewrite (get_other_names q2 name Hq2), str_eqb_refl.
  - cbn [app get]. now rewrite IH.
Qed.

(* ================================================================== *)
(** * Further properties of the resolvers *)

(** X1: the alphabetic pre-filter never changes a result.  Every resolver
    returns the clamped value exactly when the parameter name is configured
    and [int] accepts the value given for it as a positive integer, and its
    default otherwise, whether or not the value is alphabetic. *)
Theorem alphabetic_filter_is_redundant
        (host : Host) (p : Paginator) (request : Request) :
  resolve host p request
  = Ok (if truthy (query_param p) then
          match get (query_params request) (query_param p) with
          | Some raw =>
              match int_str host raw with
              | Ok v => if 0 <? v then clamp p v else default_size p
              | Raise _ => default_size p
              end
          | None => default_size p
          end
        else default_size p).
Proof.
  rewrite resolve_override. unfold override.
  destruct (truthy (query_param p)); [|reflexivity].
  destruct (get (query_params request) (query_param p)) as [raw|];
    [|reflexivity].
  destruct (int_str host raw) as [v|]; [|reflexivity].
  rewrite Z.gtb_ltb. now destruct (0 <? v).
Qed.

(** X2: the default is returned unchecked, so the bounds the docstrings
    promise hold for every request exactly when the default itself lies
    within them: the upper bound alone, and the two bounds together. *)
Theorem bounds_hold_iff_default_within
        (host : Host) (p : Paginator) :
  ((forall request : Request,
       exists n : Z, resolve host p request = Ok n /\ n <= upper_bound p)
   <-> default_size p <= upper_bound p)
  /\ ((forall request : Request,
          exists n : Z,
            resolve host p request = Ok n
            /\ lower_bound p <= n <= upper_bound p)
      <-> lower_bound p <= default_size p <= upper_bound p).
Proof.
  assert (Hempty : resolve host p empty_request = Ok (default_size p)).
  { rewrite resolve_override, override_missing; [reflexivity|].
    right. left. reflexivity. }
  split; split.
  - intros Hall. destruct (Hall empty_request) as (n & Hn & Hle).
    rewrite Hempty in Hn. injection Hn as <-. exact Hle.
  - intros Hd request. rewrite resolve_override.
    destruct (override host (query_param p) request) as [n|].
    + exists (clamp p n). split; [reflexivity|].
      destruct p; cbn [clamp upper_bound]; lia.
    + exists (default_size p). split; [reflexivity | exact Hd].
  - intros Hall. destruct (Hall empty_request) as (n & Hn & Hle).
    rewrite Hempty in Hn. injection Hn as <-. exact Hle.
  - intros Hd request. rewrite resolve_override.
    destruct (override host (query_param p) request) as [n|] eqn:Hov.
    + exists (clamp p n). split; [reflexivity|].
      apply override_positive in Hov.
      destruct p; cbn [clamp lower_bound upper_bound default_size] in *; lia.
    + exists (default_size p). split; [reflexivity | exact Hd].
Qed.

(** X3: among valid overrides a larger requested size never resolves to a
    smaller one. *)
Theorem larger_request_no_smaller_result
        (host : Host) (p : Paginator) (r1 r2 : Request)
        (raw1 raw2 : str) (v1 v2 : Z) :
  truthy (query_param p) = true ->
  get (query_params r1) (query_param p) = Some raw1 ->
  int_str host raw1 = Ok v1 ->
  get (query_params r2) (query_param p) = Some raw2 ->
  int_str host raw2 = Ok v2 ->
  0 < v1 <= v2 ->
  exists n1 n2 : Z,
    resolve host p r1 = Ok n1 /\ resolve host p r2 = Ok n2 /\ n1 <= n2.
Proof.
  intros Hparam Hget1 Hint1 Hget2 Hint2 Hle.
  exists (clamp p v1), (clamp p v2).
  rewrite !resolve_override,
    (override_parsed host _ _ _ _ Hparam Hget1 Hint1),
    (override_parsed host _ _ _ _ Hparam Hget2 Hint2).
  destruct (Z.gtb_spec v1 0); [|lia]. destruct (Z.gtb_spec v2 0); [|lia].
  repeat split. destruct p; cbn [clamp]; lia.
Qed.

Lemma larger_request_no_smaller_result_witness :
  exists n1 n2 : Z,
    resolve cpython_latin1 (LimitOffset limit_offset_defaults)
            (request_with "limit" "3") = Ok n1
    /\ resolve cpython_latin1 (LimitOffset limit_offset_defaults)
               (request_with "limit" "250") = Ok n2
    /\ n1 <= n2.
Proof.
  apply (larger_request_no_smaller_result cpython_latin1
           (LimitOffset limit_offset_defaults)
           (request_with "limit" "3") (request_with "limit" "250")
           (str_of "3") (str_of "250") 3 250);
    first [reflexivity | lia].
Defined.

(** X4: a resolved size is stable: when a valid override resolved to [n]
    under a positive upper bound, a request that asks for exactly [n], in
    decimal digits, resolves to [n] again. *)
Theorem resolved_size_is_stable
        (host : Host) (p : Paginator) (r1 r2 : Request)
        (raw : str) (v n : Z) (ds : list N) :
  truthy (query_param p) = true ->
  0 < upper_bound p ->
  get (query_params r1) (query_param p) = Some raw ->
  int_str host raw = Ok v ->
  0 < v ->
  resolve host p r1 = Ok n ->
  get (query_params r2) (query_param p) = Some (digits_str ds) ->
  is_digits ds = true ->
  exceeds_digit_limit host (N.of_nat (length ds)) = false ->
  value_of ds = n ->
  resolve host p r2 = Ok n.
Proof.
  intros Hparam Hub Hget1 Hint1 Hpos Hres Hget2 Hds Hlim Hval.
  rewrite resolve_override,
    (override_parsed host _ _ _ _ Hparam Hget1 Hint1) in Hres.
  destruct (Z.gtb_spec v 0); [|lia]. injection Hres as Hn.
  pose proof (int_str_digits host ds Hds) as Hint2.
  rewrite Hlim, Hval in Hint2.
  rewrite resolve_override,
    (override_parsed host _ _ _ _ Hparam Hget2 Hint2).
  assert (Hnpos : 0 < n) by (destruct p; cbn [clamp upper_bound] in *; lia).
  destruct (Z.gtb_spec n 0); [|lia].
  f_equal. destruct p; cbn [clamp] in *; lia.
Qed.

Lemma resolved_size_is_stable_witness :
  resolve cpython_latin1 (LimitOffset limit_offset_defaults)
          (request_with "limit" "9999") = Ok 100
  /\ resolve cpython_latin1 (LimitOffset limit_offset_defaults)
             (request_with_digits "limit" [1; 0; 0]%N) = Ok 100.
Proof.
  assert (Hfirst : resolve cpython_latin1 (LimitOffset limit_offset_defaults)
                           (request_with "limit" "9999") = Ok 100)
    by reflexivity.
  split; [exact Hfirst|].
  apply (resolved_size_is_stable cpython_latin1
           (LimitOffset limit_offset_defaults)
           (request_with "limit" "9999")
           (request_with_digits "limit" [1; 0; 0]%N)
           (str_of "9999") 9999 100 [1; 0; 0]%N);
    first [exact Hfirst | reflexivity | lia].
Defined.

(** X5: when the parameter is given more than once only its last occurrence
    counts, and parameters under other names are ignored: the request
    resolves as if the query held that last occurrence alone. *)
Theorem last_occurrence_decides
        (host : Host) (p : Paginator) (q1 q2 : QueryDict) (name value : str) :
  query_param p = Some name ->
  (forall k v, In (k, v) q2 -> k <> name) ->
  resolve host p {| query_params := q1 ++ (name, value) :: q2 |}
  = resolve host p {| query_params := [(name, value)] |}.
Proof.
  intros Hname Hq2. rewrite !resolve_override. unfold override.
  rewrite Hname. cbn [query_params].
  rewrite (get_last_occurrence q1 q2 name value Hq2).
  cbn [get]. now rewrite str_eqb_refl.
Qed.

Lemma last_occurrence_decides_witness :
  resolve cpython_latin1 (LimitOffset limit_offset_defaults)
          {| query_params :=
               [(str_of "limit", str_of "5"); (str_of "page", str_of "2")]
               ++ (str_of "limit", str_of "abc")
               :: [(str_of "offset", str_of "20")] |}
  = resolve cpython_latin1 (LimitOffset limit_offset_defaults)
            {| query_params := [(str_of "limit", str_of "abc")] |}.
Proof.
  apply (last_occurrence_decides cpython_latin1
           (LimitOffset limit_offset_defaults)
           [(str_of "limit", str_of "5"); (str_of "page", str_of "2")]
           [(str_of "offset", str_of "20")]
           (str_of "limit") (str_of "abc")).
  - reflexivity.
  - intros k v [Hin|[]]. injection Hin as <- _. discriminate.
Defined.

(** X6: a value containing any code point that cannot occur in an integer
    literal (in ASCII anything but a blank, a digit, a sign or an
    underscore; elsewhere anything but white space and decimal digits)
    resolves to the default in every class. *)
Theorem stray_character_gives_default
        (host : Host) (p : Paginator) (request : Request)
        (raw : str) (c : codepoint) :
  get (query_params request) (query_param p) = Some raw ->
  In c raw ->
  int_char_ok host c = false ->
  resolve host p request = Ok (default_size p).
Proof.
  intros Hget Hin Hbad. rewrite resolve_override.
  now rewrite (override_invalid host _ _ _ Hget
                 (stray_character_refused host raw c Hin Hbad)).
Qed.

Lemma stray_character_gives_default_witness :
  resolve cpython_latin1 (LimitOffset limit_offset_defaults)
          (request_with "limit" "12px") = Ok 10
  /\ resolve cpython_latin1 (PageNumber page_number_defaults)
             (request_with "page_size" "1e3") = Ok 10
  /\ resolve cpython_latin1 (Cursor cursor_defaults)
             (request_with "page_size" "1,000") = Ok 10.
Proof.
  split; [|split].
  - apply (stray_character_gives_default cpython_latin1
             (LimitOffset limit_offset_defaults)
             (request_with "limit" "12px") (str_of "12px") 112%N);
      [reflexivity | cbn; tauto | reflexivity].
  - apply (stray_character_gives_default cpython_latin1
             (PageNumber page_number_defaults)
             (request_with "page_size" "1e3") (str_of "1e3") 101%N);
      [reflexivity | cbn; tauto | reflexivity].
  - apply (stray_character_gives_default cpython_latin1
             (Cursor cursor_defaults)
             (request_with "page_size" "1,000") (str_of "1,000") 44%N);
      [reflexivity | cbn; tauto | reflexivity].
Defined.

(** X7: a [min_limit] of at most 1, such as the declared 1, has no effect:
    the offset class then resolves every request exactly as the page-number
    class does with the same parameter name, upper bound and default. *)
Theorem low_min_limit_is_inert
        (host : Host) (self : DefaultLimitOffsetPagination.t)
        (request : Request) :
  min_limit self <= 1 ->
  get_limit host self request
  = DefaultPageNumberPagination.get_page_size host (as_page_number self)
      request.
Proof.
  intros Hmin.
  rewrite get_limit_override, pn_get_page_size_override.
  cbn [as_page_number DefaultPageNumberPagination.page_size_query_param
         DefaultPageNumberPagination.max_page_size
         DefaultPageNumberPagination.page_size].
  destruct (override host (limit_query_param self) request) as [n|] eqn:Hov;
    [|reflexivity].
  apply override_positive in Hov. f_equal. lia.
Qed.

Lemma low_min_limit_is_inert_witness :
  min_limit limit_offset_defaults <= 1
  /\ get_limit cpython_latin1 limit_offset_defaults
               (request_with "limit" "3")
     = DefaultPageNumberPagination.get_page_size cpython_latin1
         (as_page_number limit_offset_defaults) (request_with "limit" "3").
Proof.
  assert (Hmin : min_limit limit_offset_defaults <= 1) by (cbn; lia).
  split; [exact Hmin|].
  exact (low_min_limit_is_inert cpython_latin1 limit_offset_defaults
           (request_with "limit" "3") Hmin).
Defined.

(** X8: zero, however it is written (000, +0, 0_0), and every literal with
    a minus sign resolve to the default in every class, whatever the
    blanks around them and whatever the interpreter's digit limit. *)
Theorem zero_or_negative_literal_gives_default
        (host : Host) (p : Paginator) (request : Request)
        (ws1 ws2 : str) (sg : sign) (g : list N) (gs : list (list N)) :
  get (query_params request) (query_param p)
  = Some (literal ws1 sg g gs ws2) ->
  forallb Py_ISSPACE ws1 = true ->
  forallb Py_ISSPACE ws2 = true ->
  is_digits g = true ->
  forallb is_digits gs = true ->
  sg = Minus \/ value_of (g ++ concat gs) = 0 ->
  resolve host p request = Ok (default_size p).
Proof.
  intros Hget Hws1 Hws2 Hg Hgs Hnonpos.
  pose proof (int_str_literal host ws1 sg g gs ws2 Hws1 Hws2 Hg Hgs) as Hint.
  rewrite resolve_override.
  destruct (exceeds_digit_limit host (digit_count g gs)).
  - now rewrite (override_invalid host _ _ _ Hget Hint).
  - unfold override. rewrite Hget, Hint.
    destruct (truthy (query_param p)); [|reflexivity].
    pose proof (value_from_nonneg (g ++ concat gs) 0 (Z.le_refl 0)) as Hval.
    fold (value_of (g ++ concat gs)) in Hval.
    destruct (Z.gtb_spec (sign_val sg * value_of (g ++ concat gs)) 0)
      as [Hgt|]; [|reflexivity].
    exfalso. destruct Hnonpos as [-> | Hzero].
    + cbn [sign_val] in Hgt. lia.
    + rewrite Hzero in Hgt. lia.
Qed.

Lemma zero_or_negative_literal_gives_default_witness :
  resolve cpython_latin1 (LimitOffset limit_offset_defaults)
          (request_with "limit" " -1_000 ") = Ok 10
  /\ resolve cpython_latin1 (PageNumber page_number_defaults)
             (request_with "page_size" "+0_0") = Ok 10
  /\ resolve cpython_latin1 (Cursor cursor_defaults)
             (request_with "page_size" "000") = Ok 10.
Proof.
  split; [|split].
  - apply (zero_or_negative_literal_gives_default cpython_latin1
             (LimitOffset limit_offset_defaults)
             (request_with "limit" " -1_000 ")
             [32%N] [32%N] Minus [1%N] [[0%N; 0%N; 0%N]]);
      first [reflexivity | left; reflexivity].
  - apply (zero_or_negative_literal_gives_default cpython_latin1
             (PageNumber page_number_defaults)
             (request_with "page_size" "+0_0")
             [] [] Plus [0%N] [[0%N]]);
      first [reflexivity | right; reflexivity].
  - apply (zero_or_negative_literal_gives_default cpython_latin1
             (Cursor cursor_defaults)
             (request_with "page_size" "000")
             [] [] NoSign [0%N; 0%N; 0%N] []);
      first [reflexivity | right; reflexivity].
Defined.

(** X9: the upper bound is applied last and so wins over the lower one:
    a valid override never resolves above [max_limit], and when
    [min_limit] is at least [max_limit] every valid override resolves to
    [max_limit]. *)
Theorem max_limit_wins_over_min_limit
        (host : Host) (self : DefaultLimitOffsetPagination.t)
        (request : Request) (raw : str) (v : Z) :
  truthy (limit_query_param self) = true ->
  get (query_params request) (limit_query_param self) = Some raw ->
  int_str host raw = Ok v ->
  0 < v ->
  exists n : Z,
    get_limit host self request = Ok n
    /\ n <= max_limit self
    /\ (max_limit self <= min_limit self -> n = max_limit self).
Proof.
  intros Hparam Hget Hint Hpos.
  exists (Z.min (Z.max v (min_limit self)) (max_limit self)).
  rewrite get_limit_override,
    (override_parsed host _ _ _ _ Hparam Hget Hint).
  destruct (Z.gtb_spec v 0); [|lia].
  repeat split; lia.
Qed.

Lemma max_limit_wins_over_min_limit_witness :
  exists n : Z,
    get_limit cpython_latin1
              {| limit_query_param := Some (str_of "limit");
                 min_limit := 50; max_limit := 20; default_limit := 10 |}
              (request_with "limit" "5") = Ok n
    /\ n <= 20
    /\ (20 <= 50 -> n = 20).
Proof.
  apply (max_limit_wins_over_min_limit cpython_latin1
           {| limit_query_param := Some (str_of "limit");
              min_limit := 50; max_limit := 20; default_limit := 10 |}
           (request_with "limit" "5") (str_of "5") 5);
    first [reflexivity | lia].
Defined.
